(** * Playlist logic: a shallow embedding of [playlist_logic.py]

    The module under verification normalises loosely typed song
    dictionaries, classifies them into the moods Hype / Chill / Mixed
    according to a profile, groups them into playlists, and offers a few
    aggregate and query operations.

    Modelling decisions.
    - A Python object is a [value]: [None], a bool, an int (unbounded, [Z]),
      a str or a list of values.  Floats and nested dicts as field values
      are outside this universe.
    - A str is a [string] whose characters are the code points 0..255
      (Latin-1); [str.strip], [str.lower], [repr] and [int] follow CPython on
      that range.
    - A dict with str keys ([Song], the profile, [PlaylistMap]) is a
      [gmap string _]; no claim below observes the iteration order of a
      dict, and the one loop over a [set] is a [set_fold], whose order is
      as unspecified as the set's.
    - A function that can raise returns a [result]; [or] and [any]
      short-circuit exactly as in the source.
    - Where a claim speaks of object identity or mutation
      ([merge_playlists], [search_songs]) the objects live in a [heap] and
      the function takes and returns references. *)

From Stdlib Require Import ZArith NArith Ascii String List Lia DecimalString.
From stdpp Require Import base option list gmap sets strings fin_maps.

Local Open Scope string_scope.
Local Open Scope list_scope.
Local Open Scope Z_scope.

(** ** Python values and exceptions *)

#[warnings="-register-all"]
Inductive value : Type :=
  | VNone
  | VBool (b : bool)
  | VInt (n : Z)
  | VStr (s : string)
  | VList (l : list value).

Inductive exn : Type :=
  TypeError | ValueError | AttributeError | KeyError | IndexError.

Inductive result (A : Type) : Type :=
  | Ok (a : A)
  | Raise (e : exn).
Arguments Ok {A} a.
Arguments Raise {A} e.

#[global] Instance result_ret : MRet result := @Ok.
#[global] Instance result_bind : MBind result := λ A B f m,
  match m with Ok a => f a | Raise e => Raise e end.

Definition returns {A} (m : result A) : Prop := ∃ a, m = Ok a.

(** ** Strings: the pieces of [str] the module uses *)

Module PyStr.

(** [str.isspace] on Latin-1: TAB..CR, FS..US, SPACE, NEL, NBSP. *)
Definition is_space (c : ascii) : bool :=
  let n := N_of_ascii c in
  ((9 <=? n) && (n <=? 13) || (28 <=? n) && (n <=? 32)
   || (n =? 133) || (n =? 160))%N.

(** [str.lower] on one Latin-1 character: A-Z and the accented capitals
    (all of 0xC0..0xDE but the multiplication sign) move up by 32. *)
Definition lower_char (c : ascii) : ascii :=
  let n := N_of_ascii c in
  if ((65 <=? n) && (n <=? 90)
      || (192 <=? n) && (n <=? 222) && negb (n =? 215))%N
  then ascii_of_N (n + 32) else c.

Fixpoint lower (s : string) : string :=
  match s with
  | EmptyString => EmptyString
  | String c s' => String (lower_char c) (lower s')
  end.

Fixpoint lstrip (s : string) : string :=
  match s with
  | EmptyString => EmptyString
  | String c s' => if is_space c then lstrip s' else s
  end.

Fixpoint rstrip (s : string) : string :=
  match s with
  | EmptyString => EmptyString
  | String c s' =>
      match rstrip s' with
      | EmptyString => if is_space c then EmptyString else String c EmptyString
      | r => String c r
      end
  end.

Definition strip (s : string) : string := rstrip (lstrip s).

(** [sub in s] for two strs. *)
Fixpoint contains (sub s : string) : bool :=
  String.prefix sub s
  || match s with
     | EmptyString => false
     | String _ s' => contains sub s'
     end.

Definition is_empty (s : string) : bool :=
  match s with EmptyString => true | _ => false end.

(** *** [int(s)] in base 10 *)

Definition digit_of (c : ascii) : option Z :=
  let n := N_of_ascii c in
  if ((48 <=? n) && (n <=? 57))%N then Some (Z.of_N (n - 48)) else None.

(** Digits with single underscores between them; [prev] tells whether the
    character just read was a digit. *)
Fixpoint parse_digits (s : string) (acc : Z) (prev : bool) : option Z :=
  match s with
  | EmptyString => if prev then Some acc else None
  | String c s' =>
      match digit_of c with
      | Some d => parse_digits s' (10 * acc + d) true
      | None =>
          if Ascii.eqb c "_" && prev then parse_digits s' acc false else None
      end
  end.

(** [None] stands for [ValueError]. *)
Definition parse_int (s : string) : option Z :=
  match strip s with
  | String "+" r => parse_digits r 0 false
  | String "-" r => Z.opp <$> parse_digits r 0 false
  | t => parse_digits t 0 false
  end.

(** *** [repr] of a str *)

Definition quote1 : ascii := "'".
Definition quote2 : ascii := ascii_of_nat 34.
Definition backslash : ascii := ascii_of_nat 92.

Fixpoint has_char (c : ascii) (s : string) : bool :=
  match s with
  | EmptyString => false
  | String d s' => Ascii.eqb c d || has_char c s'
  end.

Definition hex_digit (n : N) : ascii :=
  ascii_of_N (if (n <? 10)%N then 48 + n else 87 + n)%N.

Definition repr_char (q c : ascii) : string :=
  let n := N_of_ascii c in
  if Ascii.eqb c backslash then String backslash (String backslash EmptyString)
  else if Ascii.eqb c q then String backslash (String q EmptyString)
  else if (n =? 9)%N then String backslash "t"
  else if (n =? 10)%N then String backslash "n"
  else if (n =? 13)%N then String backslash "r"
  else if ((n <? 32) || (127 <=? n) && (n <=? 160) || (n =? 173))%N
  then String backslash
         (String "x" (String (hex_digit (n / 16)) (String (hex_digit (n mod 16)) EmptyString)))
  else String c EmptyString.

Fixpoint repr_body (q : ascii) (s : string) : string :=
  match s with
  | EmptyString => EmptyString
  | String c s' => repr_char q c +:+ repr_body q s'
  end.

Definition repr (s : string) : string :=
  let q := if has_char quote1 s && negb (has_char quote2 s) then quote2 else quote1 in
  String q (repr_body q s +:+ String q EmptyString).

Definition of_Z (n : Z) : string := NilZero.string_of_int (Z.to_int n).

End PyStr.

(** ** Built-in operations on values *)

Module Py.

(** [bool] is a subclass of [int]: [True] counts as 1, [False] as 0. *)
Definition as_num (v : value) : option Z :=
  match v with
  | VInt n => Some n
  | VBool b => Some (if b then 1 else 0)
  | _ => None
  end.

Definition is_str (v : value) : bool :=
  match v with VStr _ => true | _ => false end.

(** Truth value testing ([if v], [not v]). *)
Definition truthy (v : value) : bool :=
  match v with
  | VNone => false
  | VBool b => b
  | VInt n => negb (n =? 0)
  | VStr s => negb (PyStr.is_empty s)
  | VList l => match l with [] => false | _ => true end
  end.

(** [a == b]. *)
Fixpoint eq (a b : value) : bool :=
  match a, b with
  | VNone, VNone => true
  | VStr s, VStr t => String.eqb s t
  | VList l, VList m =>
      (fix go (l m : list value) : bool :=
         match l, m with
         | [], [] => true
         | x :: l', y :: m' => eq x y && go l' m'
         | _, _ => false
         end) l m
  | _, _ =>
      match as_num a, as_num b with
      | Some x, Some y => x =? y
      | _, _ => false
      end
  end.

(** Three-way ordering behind [<=] and [>=]: numbers by value, strs and
    lists lexicographically; every other pairing is a [TypeError]. *)
Fixpoint cmp (a b : value) : result comparison :=
  match a, b with
  | VStr s, VStr t => Ok (String.compare s t)
  | VList l, VList m =>
      (fix go (l m : list value) : result comparison :=
         match l, m with
         | [], [] => Ok Eq
         | [], _ :: _ => Ok Lt
         | _ :: _, [] => Ok Gt
         | x :: l', y :: m' => if eq x y then go l' m' else cmp x y
         end) l m
  | _, _ =>
      match as_num a, as_num b with
      | Some x, Some y => Ok (x ?= y)
      | _, _ => Raise TypeError
      end
  end.

Definition ge (a b : value) : result bool :=
  c ← cmp a b; mret (match c with Lt => false | _ => true end).

Definition le (a b : value) : result bool :=
  c ← cmp a b; mret (match c with Gt => false | _ => true end).

(** [k in c]: substring test on a str, membership on a list. *)
Definition contains (k c : value) : result bool :=
  match c with
  | VStr s => match k with VStr t => Ok (PyStr.contains t s) | _ => Raise TypeError end
  | VList l => Ok (existsb (eq k) l)
  | _ => Raise TypeError
  end.

Fixpoint repr (v : value) : string :=
  match v with
  | VNone => "None"
  | VBool b => if b then "True" else "False"
  | VInt n => PyStr.of_Z n
  | VStr s => PyStr.repr s
  | VList l =>
      "[" +:+ (fix go (l : list value) : string :=
                match l with
                | [] => EmptyString
                | [x] => repr x
                | x :: l' => repr x +:+ ", " +:+ go l'
                end) l +:+ "]"
  end.

(** [str(v)]. *)
Definition str (v : value) : string :=
  match v with VStr s => s | _ => repr v end.

End Py.

(** ** The data model of [playlist_logic.py] *)

(** [Song = Dict[str, object]]; a profile is a dict of the same kind and
    [PlaylistMap = Dict[str, List[Song]]]. *)
Abbreviation Song := (gmap string value).
Abbreviation Profile := (gmap string value).
Abbreviation PlaylistMap := (gmap string (list (gmap string value))).

(** [d.get(key, dflt)]. *)
Definition dict_get {A} (d : gmap string A) (key : string) (dflt : A) : A :=
  default dflt (d !! key).

Definition HYPE_KEYWORDS : list string := ["rock"; "punk"; "party"].
Definition CHILL_KEYWORDS : list string := ["lofi"; "ambient"; "sleep"].

Definition DEFAULT_PROFILE : Profile :=
  <["name" := VStr "Default"]>
  (<["hype_min_energy" := VInt 7]>
  (<["chill_max_energy" := VInt 3]>
  (<["favorite_genre" := VStr "rock"]>
  (<["include_mixed" := VBool true]> ∅)))).

(** ** Normalizer *)

Definition normalize_string (value : value) (lowercase : bool) : string :=
  match value with
  | VStr s =>
      let normalized := PyStr.strip s in
      if lowercase then PyStr.lower normalized else normalized
  | _ => EmptyString
  end.

Definition normalize_title (title : value) : string := normalize_string title false.
Definition normalize_artist (artist : value) : string := normalize_string artist true.
Definition normalize_genre (genre : value) : string := normalize_string genre true.

(** [int(energy)] under [try ... except ValueError: energy = 0], applied
    only when [energy] is a str. *)
Definition coerce_energy (energy : value) : value :=
  match energy with
  | VStr s => match PyStr.parse_int s with Some n => VInt n | None => VInt 0 end
  | _ => energy
  end.

Definition wrap_tags (tags : value) : value :=
  match tags with
  | VStr _ => VList [tags]
  | _ => tags
  end.

Definition normalize_song (raw : Song) : Song :=
  let title := normalize_title (VStr (Py.str (dict_get raw "title" (VStr EmptyString)))) in
  let artist := normalize_artist (VStr (Py.str (dict_get raw "artist" (VStr EmptyString)))) in
  let genre := normalize_genre (VStr (Py.str (dict_get raw "genre" (VStr EmptyString)))) in
  let energy := coerce_energy (dict_get raw "energy" (VInt 0)) in
  let tags := wrap_tags (dict_get raw "tags" (VList [])) in
  <["title" := VStr title]>
  (<["artist" := VStr artist]>
  (<["genre" := VStr genre]>
  (<["energy" := energy]>
  (<["tags" := tags]> ∅)))).

(** ** Classifier *)

(** [any(k in genre for k in keywords)]: stops at the first hit, and raises
    when [genre] supports no [in]. *)
Fixpoint any_keyword_in (genre : value) (keywords : list string) : result bool :=
  match keywords with
  | [] => Ok false
  | k :: ks =>
      hit ← Py.contains (VStr k) genre;
      if hit : bool then Ok true else any_keyword_in genre ks
  end.

Definition is_hype (song : Song) (profile : Profile) : result bool :=
  let energy := dict_get song "energy" (VInt 0) in
  let genre := dict_get song "genre" (VStr EmptyString) in
  let favorite_genre := dict_get profile "favorite_genre" (VStr EmptyString) in
  let hype_min_energy := dict_get profile "hype_min_energy" (VInt 7) in
  is_hype_keyword ← any_keyword_in genre HYPE_KEYWORDS;
  if Py.eq genre favorite_genre then Ok true
  else
    hot ← Py.ge energy hype_min_energy;
    if hot : bool then Ok true else Ok is_hype_keyword.

Definition is_chill (song : Song) (profile : Profile) : result bool :=
  let energy := dict_get song "energy" (VInt 0) in
  let genre := dict_get song "genre" (VStr EmptyString) in
  let chill_max_energy := dict_get profile "chill_max_energy" (VInt 3) in
  is_chill_keyword ← any_keyword_in genre CHILL_KEYWORDS;
  calm ← Py.le energy chill_max_energy;
  if calm : bool then Ok true else Ok is_chill_keyword.

Definition classify_song (song : Song) (profile : Profile) : result string :=
  hype ← is_hype song profile;
  if hype : bool then Ok "Hype"
  else
    chill ← is_chill song profile;
    if chill : bool then Ok "Chill" else Ok "Mixed".

(** ** Playlist builder *)

(** [playlists[mood].append(song)]; a missing key is a [KeyError]. *)
Definition bucket_append (playlists : PlaylistMap) (mood : string) (song : Song)
  : result PlaylistMap :=
  match playlists !! mood with
  | Some bucket => Ok (<[mood := bucket ++ [song]]> playlists)
  | None => Raise KeyError
  end.

Definition empty_playlists : PlaylistMap :=
  <["Hype" := []]> (<["Chill" := []]> (<["Mixed" := []]> ∅)).

(** The body of [for song in songs], threaded through the playlists built
    so far. *)
Fixpoint build_loop (songs : list Song) (profile : Profile) (playlists : PlaylistMap)
  : result PlaylistMap :=
  match songs with
  | [] => Ok playlists
  | song :: rest =>
      let normalized := normalize_song song in
      mood ← classify_song normalized profile;
      let normalized := <["mood" := VStr mood]> normalized in
      playlists ← bucket_append playlists mood normalized;
      build_loop rest profile playlists
  end.

Definition build_playlists (songs : list Song) (profile : Profile) : result PlaylistMap :=
  build_loop songs profile empty_playlists.

(** ** Objects with identity: a heap of mutable containers *)

Abbreviation loc := positive.

(** A new object gets a reference no live object has. *)
Definition alloc {A} (h : gmap loc A) (x : A) : loc * gmap loc A :=
  let l := fresh (dom h) in (l, <[l := x]> h).

(** ** Aggregator *)

(** One turn of [for key in ...: merged[key] = a.get(key, []) + b.get(key, [])]:
    both inputs are read from the heap as it is now, and the only write goes
    to the object [merged] refers to.  [+] builds a new list. *)
Definition merge_step (a b merged : loc) (key : string) (h : gmap loc PlaylistMap)
  : gmap loc PlaylistMap :=
  match h !! a, h !! b, h !! merged with
  | Some da, Some db, Some dm =>
      <[merged := <[key := dict_get da key [] ++ dict_get db key []]> dm]> h
  | _, _, _ => h
  end.

(** [merge_playlists(a, b)] on references into a heap of playlist maps; the
    result is the reference it returns and the heap it leaves.  [None] only
    for a reference that points nowhere. *)
Definition merge_playlists (a b : loc) (h : gmap loc PlaylistMap)
  : option (loc * gmap loc PlaylistMap) :=
  da ← h !! a;
  db ← h !! b;
  let '(merged, h1) := alloc h (∅ : PlaylistMap) in
  Some (merged, set_fold (merge_step a b merged) h1 (dom da ∪ dom db)).

(** [collections.Counter] as the insertion-ordered dict it is: a list of
    (element, count) in order of first occurrence. *)
Fixpoint counter_add (counts : list (string * nat)) (x : string) : list (string * nat) :=
  match counts with
  | [] => [(x, 1%nat)]
  | (y, n) :: rest =>
      if String.eqb x y then (y, S n) :: rest else (y, n) :: counter_add rest x
  end.

Definition Counter (xs : list string) : list (string * nat) :=
  fold_left counter_add xs [].

(** [max(items, key=count)]: a later item replaces the best so far only when
    its count is strictly larger. *)
Fixpoint max_by_count (best : string * nat) (items : list (string * nat)) : string * nat :=
  match items with
  | [] => best
  | it :: rest =>
      if (snd best <? snd it)%nat then max_by_count it rest else max_by_count best rest
  end.

(** [Counter.most_common(1)]. *)
Definition most_common_1 (counts : list (string * nat)) : list (string * nat) :=
  match counts with
  | [] => []
  | it :: rest => [max_by_count it rest]
  end.

(** The list comprehension of [most_common_artist]: the filter looks at the
    raw value, the strip comes after it. *)
Definition artist_names (songs : list Song) : list string :=
  map (λ song, PyStr.strip (Py.str (dict_get song "artist" (VStr EmptyString))))
      (List.filter (λ song, Py.truthy (dict_get song "artist" VNone)) songs).

Definition most_common_artist (songs : list Song) : result (string * nat) :=
  let artists := artist_names songs in
  match artists with
  | [] => Ok (EmptyString, 0%nat)
  | _ =>
      match most_common_1 (Counter artists) with
      | top :: _ => Ok top
      | [] => Raise IndexError
      end
  end.

(** ** Query *)

(** The test of the loop body of [search_songs]. *)
Definition song_matches (query_lower field : string) (song : Song) : bool :=
  let value := PyStr.lower (Py.str (dict_get song field (VStr EmptyString))) in
  Py.truthy (VStr value) && PyStr.contains query_lower value.

(** One turn of the loop: [filtered.append(song)] writes to the object
    [filtered] refers to. *)
Definition search_step (query_lower field : string) (filtered : loc)
    (h : gmap loc (list Song)) (song : Song) : gmap loc (list Song) :=
  if song_matches query_lower field song
  then match h !! filtered with
       | Some l => <[filtered := l ++ [song]]> h
       | None => h
       end
  else h.

(** [search_songs(songs, query, field)] on a reference into a heap of song
    lists.  A truthy query that is no str has no [lower] method; a reference
    that points nowhere is outside Python and reported as [KeyError]. *)
Definition search_songs (songs : loc) (query : value) (field : string)
    (h : gmap loc (list Song)) : result (loc * gmap loc (list Song)) :=
  if negb (Py.truthy query) then Ok (songs, h)
  else
    match query with
    | VStr q =>
        let query_lower := PyStr.strip (PyStr.lower q) in
        let '(filtered, h1) := alloc h [] in
        match h1 !! songs with
        | Some l => Ok (filtered, fold_left (search_step query_lower field filtered) l h1)
        | None => Raise KeyError
        end
    | _ => Raise AttributeError
    end.

(** ** Vocabulary of the statements *)

Definition MOODS : list string := ["Hype"; "Chill"; "Mixed"].

Definition FIELDS : gset string :=
  {[ "title"; "artist"; "genre"; "energy"; "tags" ]}.

(** The dynamic types under which the classifier cannot raise: the genre
    is a str, the energy and both thresholds are ints (a missing key takes
    its default). *)
Definition is_int (v : value) : bool :=
  match Py.as_num v with Some _ => true | None => false end.

Definition song_typed (song : Song) : bool :=
  Py.is_str (dict_get song "genre" (VStr EmptyString))
  && is_int (dict_get song "energy" (VInt 0)).

Definition profile_typed (profile : Profile) : bool :=
  is_int (dict_get profile "hype_min_energy" (VInt 7))
  && is_int (dict_get profile "chill_max_energy" (VInt 3)).

(** A raw energy that normalisation turns into an int: absent, an int, or
    any str. *)
Definition raw_energy_ok (raw : Song) : bool :=
  let energy := dict_get raw "energy" (VInt 0) in
  is_int energy || Py.is_str energy.

(** What [build_playlists] stores for a raw song of mood [mood]. *)
Definition labelled (mood : string) (raw : Song) : Song :=
  <["mood" := VStr mood]> (normalize_song raw).

Definition classified_as (profile : Profile) (mood : string) (raw : Song) : bool :=
  match classify_song (normalize_song raw) profile with
  | Ok m => String.eqb m mood
  | Raise _ => false
  end.

(** The raw songs of mood [mood], in input order, as stored. *)
Definition bucket_of (profile : Profile) (mood : string) (songs : list Song) : list Song :=
  map (labelled mood) (List.filter (classified_as profile mood) songs).

(** Number of occurrences of [x], and the position of its first one. *)
Definition occurrences (x : string) (xs : list string) : nat :=
  length (List.filter (String.eqb x) xs).

Fixpoint first_index (x : string) (xs : list string) : nat :=
  match xs with
  | [] => 0
  | y :: rest => if String.eqb x y then 0 else S (first_index x rest)
  end.

(** A string [lstrip] leaves alone is empty or starts with a non-space. *)
Definition no_leading_space (s : string) : Prop :=
  match s with EmptyString => True | String c _ => PyStr.is_space c = false end.

(** Sample inputs. *)
Definition song_of (genre : string) (energy : Z) : Song :=
  <["genre" := VStr genre]> (<["energy" := VInt energy]> ∅).

Definition song_energy_none : Song := <["energy" := VNone]> ∅.
Definition song_title_int : Song := <["title" := VInt 123]> ∅.
Definition song_artist_blank : Song := <["artist" := VStr " "]> ∅.
Definition song_artist (artist : string) : Song := <["artist" := VStr artist]> ∅.

Definition playlists_a : PlaylistMap :=
  <["Hype" := [song_artist "ann"]]> (<["Chill" := [song_artist "bob"]]> ∅).
Definition playlists_b : PlaylistMap :=
  <["Hype" := [song_artist "cy"]]> (<["Live" := [song_artist "dee"]]> ∅).
Definition sample_heap : gmap loc PlaylistMap :=
  <[1%positive := playlists_a]> (<[2%positive := playlists_b]> ∅).
Definition sample_lists : gmap loc (list Song) :=
  <[1%positive := [song_artist "The Rockets"; song_artist ""; song_artist "Bob"]]> ∅.

(** * Properties *)

(** ** Strings *)

Section string_facts.
Import PyStr.

Lemma is_space_lower_char c : is_space (lower_char c) = is_space c.
Proof. destruct c as [[] [] [] [] [] [] [] []]; reflexivity. Qed.

Lemma lower_char_idem c : lower_char (lower_char c) = lower_char c.
Proof. destruct c as [[] [] [] [] [] [] [] []]; reflexivity. Qed.

Lemma lower_idem s : lower (lower s) = lower s.
Proof. induction s as [|c s IH]; simpl; [done|]. by rewrite lower_char_idem, IH. Qed.

Lemma lstrip_lower s : lstrip (lower s) = lower (lstrip s).
Proof.
  induction s as [|c s IH]; simpl; [done|].
  rewrite is_space_lower_char. by destruct (is_space c).
Qed.

Lemma rstrip_lower s : rstrip (lower s) = lower (rstrip s).
Proof.
  induction s as [|c s IH]; simpl; [done|].
  rewrite IH, is_space_lower_char.
  destruct (rstrip s); simpl; [by destruct (is_space c)|done].
Qed.

Lemma strip_lower s : strip (lower s) = lower (strip s).
Proof. unfold strip. by rewrite lstrip_lower, rstrip_lower. Qed.

Lemma lstrip_no_leading_space s : no_leading_space (lstrip s).
Proof.
  induction s as [|c s IH]; simpl; [done|].
  destruct (is_space c) eqn:E; [done|]. exact E.
Qed.

Lemma lstrip_fixed s : no_leading_space s → lstrip s = s.
Proof. destruct s as [|c s]; simpl; [done|]. by intros ->. Qed.

Lemma rstrip_no_leading_space s : no_leading_space s → no_leading_space (rstrip s).
Proof.
  destruct s as [|c s]; simpl; [done|]. intros E.
  destruct (rstrip s); simpl; [by rewrite E|done].
Qed.

Lemma rstrip_idem s : rstrip (rstrip s) = rstrip s.
Proof.
  induction s as [|c s IH]; simpl; [done|].
  destruct (rstrip s) as [|d r] eqn:E.
  - destruct (is_space c) eqn:Ec; simpl; [done|]. by rewrite Ec.
  - change (rstrip (String c (String d r)))
      with (match rstrip (String d r) with
            | EmptyString => if is_space c then EmptyString else String c EmptyString
            | r' => String c r'
            end).
    by rewrite IH.
Qed.

Lemma strip_idem s : strip (strip s) = strip s.
Proof.
  unfold strip.
  rewrite (lstrip_fixed (rstrip (lstrip s))).
  - apply rstrip_idem.
  - apply rstrip_no_leading_space, lstrip_no_leading_space.
Qed.

Lemma append_cons c s t : String c s +:+ t = String c (s +:+ t).
Proof. reflexivity. Qed.

Lemma append_nil t : EmptyString +:+ t = t.
Proof. reflexivity. Qed.

(** [contains] is the substring relation. *)
Lemma prefix_app sub s : String.prefix sub s = true ↔ ∃ post, s = sub +:+ post.
Proof.
  revert s. induction sub as [|c sub IH]; intros s.
  - split; [intros _; by exists s|by destruct s].
  - destruct s as [|d s]; simpl.
    { split; [done|]. intros [post E]. by rewrite append_cons in E. }
    destruct (ascii_dec c d) as [->|Hne].
    + rewrite IH. split; intros [post E]; exists post;
        rewrite append_cons in *; congruence.
    + split; [done|]. intros [post E]. rewrite append_cons in E. congruence.
Qed.

Lemma contains_substring sub s :
  contains sub s = true ↔ ∃ pre post, s = pre +:+ sub +:+ post.
Proof.
  induction s as [|d s IH].
  - destruct sub as [|c sub]; simpl.
    + split; [intros _; by exists EmptyString, EmptyString|done].
    + split; [done|]. intros (pre & post & E). destruct pre as [|c' pre].
      * by rewrite append_nil, append_cons in E.
      * by rewrite append_cons in E.
  - change (contains sub (String d s))
      with (String.prefix sub (String d s) || contains sub s).
    rewrite orb_true_iff, prefix_app, IH. split.
    + intros [[post E]|(pre & post & E)].
      * by exists EmptyString, post.
      * exists (String d pre), post. by rewrite append_cons, E.
    + intros (pre & post & E). destruct pre as [|c pre].
      * left. rewrite append_nil in E. by exists post.
      * right. rewrite append_cons in E. exists pre, post. congruence.
Qed.

End string_facts.

(** ** Normalizer *)

Section normalizer.
Implicit Types (raw : Song) (v : value).

(** The guard of [normalize_string]: anything but a str becomes the
    empty string. *)
Lemma normalize_string_non_str v lowercase :
  Py.is_str v = false → normalize_string v lowercase = EmptyString.
Proof. by destruct v. Qed.

Lemma normalize_string_idem s lowercase :
  normalize_string (VStr (normalize_string (VStr s) lowercase)) lowercase
  = normalize_string (VStr s) lowercase.
Proof.
  destruct lowercase; simpl.
  - by rewrite strip_lower, strip_idem, lower_idem.
  - apply strip_idem.
Qed.

Lemma normalize_song_title raw :
  normalize_song raw !! "title"
  = Some (VStr (normalize_title (VStr (Py.str (dict_get raw "title" (VStr EmptyString)))))).
Proof. reflexivity. Qed.

Lemma normalize_song_artist raw :
  normalize_song raw !! "artist"
  = Some (VStr (normalize_artist (VStr (Py.str (dict_get raw "artist" (VStr EmptyString)))))).
Proof. reflexivity. Qed.

Lemma normalize_song_genre raw :
  normalize_song raw !! "genre"
  = Some (VStr (normalize_genre (VStr (Py.str (dict_get raw "genre" (VStr EmptyString)))))).
Proof. reflexivity. Qed.

Lemma normalize_song_energy raw :
  normalize_song raw !! "energy" = Some (coerce_energy (dict_get raw "energy" (VInt 0))).
Proof. reflexivity. Qed.

Lemma normalize_song_tags raw :
  normalize_song raw !! "tags" = Some (wrap_tags (dict_get raw "tags" (VList []))).
Proof. reflexivity. Qed.

Lemma dict_get_Some {A} (d : gmap string A) key dflt x :
  d !! key = Some x → dict_get d key dflt = x.
Proof. unfold dict_get. by intros ->. Qed.

Lemma coerce_energy_idem v : coerce_energy (coerce_energy v) = coerce_energy v.
Proof. destruct v as [| | |s|]; simpl; try done. by destruct (PyStr.parse_int s). Qed.

Lemma wrap_tags_idem v : wrap_tags (wrap_tags v) = wrap_tags v.
Proof. by destruct v. Qed.

Lemma normalize_song_dom raw : dom (normalize_song raw) = FIELDS.
Proof.
  unfold normalize_song, FIELDS. rewrite !dom_insert_L, dom_empty_L.
  set_solver.
Qed.

(** C4: normalising a normalised song changes nothing: the title, artist,
    genre, energy and tags of [normalize_song (normalize_song raw)] are those
    of [normalize_song raw], and as the result has no other key the two
    dicts are equal. *)
Theorem normalize_song_idempotent raw :
  normalize_song (normalize_song raw) = normalize_song raw
  ∧ ∀ key, key ∈ FIELDS →
      normalize_song (normalize_song raw) !! key = normalize_song raw !! key.
Proof.
  assert (normalize_song (normalize_song raw) = normalize_song raw) as E;
    [|split; [exact E|intros; by rewrite E]].
  unfold normalize_song at 1.
  rewrite (dict_get_Some _ _ (VStr EmptyString) _ (normalize_song_title raw)),
    (dict_get_Some _ _ (VStr EmptyString) _ (normalize_song_artist raw)),
    (dict_get_Some _ _ (VStr EmptyString) _ (normalize_song_genre raw)),
    (dict_get_Some _ _ (VInt 0) _ (normalize_song_energy raw)),
    (dict_get_Some _ _ (VList []) _ (normalize_song_tags raw)).
  unfold normalize_song, normalize_title, normalize_artist, normalize_genre.
  change (Py.str (VStr ?s)) with s.
  by rewrite !normalize_string_idem, coerce_energy_idem, wrap_tags_idem.
Qed.

(** C10: the dict [normalize_song] returns has exactly the keys title,
    artist, genre, energy and tags; any other key of the input, a [mood]
    among them, is gone. *)
Theorem normalize_song_keys raw :
  dom (normalize_song raw) = {[ "title"; "artist"; "genre"; "energy"; "tags" ]}
  ∧ normalize_song raw !! "mood" = None
  ∧ ∀ key, key ∉ ({[ "title"; "artist"; "genre"; "energy"; "tags" ]} : gset string) →
      normalize_song raw !! key = None.
Proof.
  split; [apply normalize_song_dom|]. split; [reflexivity|].
  intros key Hkey. apply not_elem_of_dom. by rewrite normalize_song_dom.
Qed.

(** C2 fails on the code: [normalize_song] passes [str(raw.get(...))] to
    the normaliser, so the guard of [normalize_string] never sees a
    non-str; an int title 123 comes out as the text "123", not as the
    empty string. *)
Theorem normalize_song_non_str_title :
  normalize_song song_title_int !! "title" = Some (VStr "123")
  ∧ normalize_song song_title_int !! "title" ≠ Some (VStr EmptyString).
Proof. split; [reflexivity|discriminate]. Qed.

End normalizer.

(** ** Classifier *)

Section classifier.
Implicit Types (song raw : Song) (profile : Profile).

Lemma bind_Ok {A B} (f : A → result B) (a : A) : (Ok a ≫= f) = f a.
Proof. reflexivity. Qed.

Lemma any_keyword_in_str g keywords :
  any_keyword_in (VStr g) keywords = Ok (existsb (λ k, PyStr.contains k g) keywords).
Proof.
  induction keywords as [|k ks IH]; simpl; [done|].
  destruct (PyStr.contains k g); simpl; [done|exact IH].
Qed.

Lemma cmp_ints a b : is_int a = true → is_int b = true → returns (Py.cmp a b).
Proof.
  unfold is_int. destruct a, b; simpl; try discriminate; intros _ _; by eexists.
Qed.

Lemma ge_ints a b : is_int a = true → is_int b = true → returns (Py.ge a b).
Proof.
  intros Ha Hb. destruct (cmp_ints a b Ha Hb) as [c Hc].
  unfold Py.ge. rewrite Hc. by eexists.
Qed.

Lemma le_ints a b : is_int a = true → is_int b = true → returns (Py.le a b).
Proof.
  intros Ha Hb. destruct (cmp_ints a b Ha Hb) as [c Hc].
  unfold Py.le. rewrite Hc. by eexists.
Qed.

Lemma is_hype_returns song profile :
  song_typed song = true → profile_typed profile = true →
  returns (is_hype song profile).
Proof.
  unfold song_typed, profile_typed, is_hype.
  intros [Hg He]%andb_true_iff [Hh _]%andb_true_iff.
  destruct (dict_get song "genre" (VStr EmptyString)) as [| | |g|]; try discriminate.
  rewrite any_keyword_in_str, bind_Ok.
  destruct (Py.eq (VStr g) (dict_get profile "favorite_genre" (VStr EmptyString)));
    [by eexists|].
  destruct (ge_ints _ _ He Hh) as [[] ->]; rewrite bind_Ok; by eexists.
Qed.

Lemma is_chill_returns song profile :
  song_typed song = true → profile_typed profile = true →
  returns (is_chill song profile).
Proof.
  unfold song_typed, profile_typed, is_chill.
  intros [Hg He]%andb_true_iff [_ Hc]%andb_true_iff.
  destruct (dict_get song "genre" (VStr EmptyString)) as [| | |g|]; try discriminate.
  rewrite any_keyword_in_str, bind_Ok.
  destruct (le_ints _ _ He Hc) as [[] ->]; rewrite bind_Ok; by eexists.
Qed.

Lemma classify_song_range song profile label :
  classify_song song profile = Ok label → label ∈ MOODS.
Proof.
  unfold classify_song, MOODS.
  destruct (is_hype song profile) as [[]|]; simpl; [| |done].
  - intros [= <-]. set_solver.
  - destruct (is_chill song profile) as [[]|]; simpl; [| |done];
      intros [= <-]; set_solver.
Qed.

Lemma classify_song_hype_first song profile :
  is_hype song profile = Ok true → classify_song song profile = Ok "Hype".
Proof. unfold classify_song. by intros ->. Qed.

Lemma classify_song_returns song profile :
  song_typed song = true → profile_typed profile = true →
  returns (classify_song song profile).
Proof.
  intros Hs Hp. unfold classify_song.
  destruct (is_hype_returns song profile Hs Hp) as [[] ->]; simpl; [by eexists|].
  destruct (is_chill_returns song profile Hs Hp) as [[] ->]; simpl; by eexists.
Qed.

(** C1 fails as stated: a song whose energy is [None] makes the comparison
    with the threshold raise, so no label is returned. *)
Lemma classify_song_can_raise :
  classify_song song_energy_none DEFAULT_PROFILE = Raise TypeError
  ∧ ¬ ∃ label, classify_song song_energy_none DEFAULT_PROFILE = Ok label
               ∧ label ∈ MOODS.
Proof. split; [reflexivity|]. by intros (label & H & _). Qed.

(** C1, amended: whatever [classify_song] returns is one of the three
    labels; it returns [Hype] whenever [is_hype] holds, so also when
    [is_chill] holds as well; and it does return a label for every song
    whose genre is a str and whose energy is an int, under a profile whose
    two thresholds are ints (a missing key taking its default). *)
Theorem classify_song_label song profile :
  (song_typed song = true → profile_typed profile = true →
     ∃ label, classify_song song profile = Ok label ∧ label ∈ MOODS)
  ∧ (∀ label, classify_song song profile = Ok label → label ∈ MOODS)
  ∧ (is_hype song profile = Ok true → is_chill song profile = Ok true →
     classify_song song profile = Ok "Hype").
Proof.
  split; [|split].
  - intros Hs Hp. destruct (classify_song_returns song profile Hs Hp) as [label H].
    exists label. split; [done|]. by eapply classify_song_range.
  - apply classify_song_range.
  - intros H _. by apply classify_song_hype_first.
Qed.

Lemma classify_song_label_witness :
  (∃ label, classify_song (song_of "rock" 1) DEFAULT_PROFILE = Ok label ∧ label ∈ MOODS)
  ∧ classify_song (song_of "rock" 1) DEFAULT_PROFILE = Ok "Hype".
Proof.
  destruct (classify_song_label (song_of "rock" 1) DEFAULT_PROFILE) as (H1 & _ & H3).
  split; [apply H1; reflexivity|apply H3; reflexivity].
Defined.

(** C9: under a profile with no [favorite_genre] the genre is compared
    with the empty string, so a song whose genre is empty (or missing) is
    Hype whatever its energy is, an energy that could not be compared
    included. *)
Theorem empty_genre_is_hype song profile :
  profile !! "favorite_genre" = None →
  dict_get song "genre" (VStr EmptyString) = VStr EmptyString →
  is_hype song profile = Ok true ∧ classify_song song profile = Ok "Hype".
Proof.
  intros Hp Hg.
  assert (is_hype song profile = Ok true) as H.
  { assert (dict_get profile "favorite_genre" (VStr EmptyString) = VStr EmptyString)
      as Hf by (unfold dict_get; by rewrite Hp).
    unfold is_hype. by rewrite Hg, Hf. }
  split; [exact H|by apply classify_song_hype_first].
Qed.

Lemma empty_genre_is_hype_witness :
  is_hype (normalize_song song_energy_none) (<["hype_min_energy" := VInt 9]> ∅) = Ok true
  ∧ classify_song (normalize_song song_energy_none) (<["hype_min_energy" := VInt 9]> ∅)
    = Ok "Hype".
Proof.
  apply (empty_genre_is_hype (normalize_song song_energy_none)
           (<["hype_min_energy" := VInt 9]> ∅)); reflexivity.
Defined.

End classifier.

(** ** Playlist builder *)

Section builder.
Implicit Types (songs : list Song) (profile : Profile) (playlists acc : PlaylistMap).

Lemma bucket_append_Ok acc mood song playlists :
  bucket_append acc mood song = Ok playlists →
  ∃ bucket, acc !! mood = Some bucket ∧ playlists = <[mood := bucket ++ [song]]> acc.
Proof.
  unfold bucket_append. destruct (acc !! mood) as [bucket|]; [|done].
  intros [= <-]. by exists bucket.
Qed.

(** One turn of the loop, read backwards from a normal return. *)
Lemma build_loop_cons raw songs profile acc playlists :
  build_loop (raw :: songs) profile acc = Ok playlists →
  ∃ mood bucket,
    classify_song (normalize_song raw) profile = Ok mood
    ∧ acc !! mood = Some bucket
    ∧ build_loop songs profile (<[mood := bucket ++ [labelled mood raw]]> acc)
      = Ok playlists.
Proof.
  simpl. destruct (classify_song (normalize_song raw) profile) as [mood|]; [|done].
  rewrite bind_Ok.
  destruct (bucket_append acc mood _) as [acc'|] eqn:E; [|done].
  rewrite bind_Ok. intros H.
  apply bucket_append_Ok in E as (bucket & Hb & ->).
  by exists mood, bucket.
Qed.

Lemma classified_as_true profile mood raw :
  classify_song (normalize_song raw) profile = Ok mood →
  classified_as profile mood raw = true.
Proof. unfold classified_as. intros ->. apply String.eqb_refl. Qed.

Lemma classified_as_other profile mood mood' raw :
  classify_song (normalize_song raw) profile = Ok mood → mood ≠ mood' →
  classified_as profile mood' raw = false.
Proof. unfold classified_as. intros ->. by apply String.eqb_neq. Qed.

(** Each bucket grows by exactly its own songs, in input order. *)
Lemma build_loop_bucket songs profile acc playlists mood bucket :
  build_loop songs profile acc = Ok playlists →
  acc !! mood = Some bucket →
  playlists !! mood = Some (bucket ++ bucket_of profile mood songs).
Proof.
  revert acc bucket. induction songs as [|raw songs IH]; intros acc bucket.
  - intros [= <-] ->. unfold bucket_of. simpl. by rewrite app_nil_r.
  - intros (m & b & Hm & Hb & Hrest)%build_loop_cons Hacc.
    unfold bucket_of. simpl.
    destruct (decide (m = mood)) as [->|Hne].
    + rewrite (classified_as_true _ _ _ Hm). simpl.
      rewrite (IH _ (bucket ++ [labelled mood raw]) Hrest).
      * unfold bucket_of. by rewrite <- app_assoc.
      * rewrite lookup_insert_eq. congruence.
    + rewrite (classified_as_other _ _ _ _ Hm Hne).
      apply (IH _ _ Hrest). by rewrite lookup_insert_ne.
Qed.

Lemma build_loop_classified songs profile acc playlists :
  build_loop songs profile acc = Ok playlists →
  Forall (λ raw, ∃ mood, classify_song (normalize_song raw) profile = Ok mood) songs.
Proof.
  revert acc. induction songs as [|raw songs IH]; intros acc; [by constructor|].
  intros (m & b & Hm & _ & Hrest)%build_loop_cons.
  constructor; [by exists m|by eapply IH].
Qed.

(** The three buckets partition the songs that were classified. *)
Lemma bucket_lengths songs profile :
  Forall (λ raw, ∃ mood, classify_song (normalize_song raw) profile = Ok mood) songs →
  (length (bucket_of profile "Hype" songs)
   + length (bucket_of profile "Chill" songs)
   + length (bucket_of profile "Mixed" songs) = length songs)%nat.
Proof.
  unfold bucket_of. rewrite !length_map.
  induction 1 as [|raw songs [mood Hm] _ IH]; [done|].
  pose proof (classify_song_range _ _ _ Hm) as Hin.
  cbn [List.filter length].
  unfold MOODS in Hin.
  repeat (apply elem_of_cons in Hin as [->|Hin];
    [rewrite (classified_as_true _ _ _ Hm), !(classified_as_other _ _ _ _ Hm) by done;
     cbn [length]; lia|]).
  by apply elem_of_nil in Hin.
Qed.

Lemma normalize_song_typed raw :
  raw_energy_ok raw = true → song_typed (normalize_song raw) = true.
Proof.
  unfold raw_energy_ok, song_typed. intros H.
  rewrite (dict_get_Some _ _ (VStr EmptyString) _ (normalize_song_genre raw)),
    (dict_get_Some _ _ (VInt 0) _ (normalize_song_energy raw)).
  simpl. destruct (dict_get raw "energy" (VInt 0)) as [| | |s|]; try done.
  simpl. by destruct (PyStr.parse_int s).
Qed.

(** With the three mood keys in place the loop runs to the end on songs
    whose energy normalises to an int. *)
Lemma build_loop_returns songs profile acc :
  profile_typed profile = true →
  Forall (λ raw, raw_energy_ok raw = true) songs →
  (∀ mood, mood ∈ MOODS → is_Some (acc !! mood)) →
  returns (build_loop songs profile acc).
Proof.
  intros Hp Hs. revert acc. induction Hs as [|raw songs Hraw _ IH]; intros acc Hacc.
  - by eexists.
  - simpl.
    destruct (classify_song_returns (normalize_song raw) profile) as [mood Hm];
      [by apply normalize_song_typed|done|].
    rewrite Hm, bind_Ok.
    destruct (Hacc mood (classify_song_range _ _ _ Hm)) as [bucket Hb].
    unfold bucket_append. rewrite Hb, bind_Ok.
    apply IH. intros mood' Hmood'.
    destruct (decide (mood = mood')) as [->|Hne].
    + rewrite lookup_insert_eq. by eexists.
    + rewrite lookup_insert_ne by done. by apply Hacc.
Qed.

Lemma build_playlists_returns songs profile :
  profile_typed profile = true →
  Forall (λ raw, raw_energy_ok raw = true) songs →
  returns (build_playlists songs profile).
Proof.
  intros Hp Hs. apply build_loop_returns; [done..|].
  intros mood Hmood. unfold MOODS in Hmood.
  repeat (apply elem_of_cons in Hmood as [->|Hmood]; [by eexists|]).
  by apply elem_of_nil in Hmood.
Qed.

(** C3 fails on the code: a raw song whose energy is [None] passes
    through [normalize_song] unchanged ([normalize_song] only repairs str
    energies), and the comparison [energy >= hype_min_energy] in [is_hype]
    raises [TypeError], which [build_playlists] lets through. *)
Theorem build_playlists_raises :
  build_playlists [song_energy_none] DEFAULT_PROFILE = Raise TypeError
  ∧ normalize_song song_energy_none !! "energy" = Some VNone.
Proof. split; reflexivity. Qed.

(** C5: when [build_playlists] returns, each of the three buckets holds
    exactly the input songs of that mood, normalised and labelled, in the
    order of the input list, and the three lengths add up to the length of
    the input.  It does return whenever the thresholds of the profile are
    ints and every raw energy is an int, a str or missing. *)
Theorem build_playlists_order_count songs profile playlists :
  build_playlists songs profile = Ok playlists →
  (∀ mood, mood ∈ MOODS →
     playlists !! mood = Some (bucket_of profile mood songs)
     ∧ bucket_of profile mood songs `sublist_of` map (labelled mood) songs)
  ∧ (length (default [] (playlists !! "Hype"))
     + length (default [] (playlists !! "Chill"))
     + length (default [] (playlists !! "Mixed")) = length songs)%nat.
Proof.
  intros H.
  assert (∀ mood, mood ∈ MOODS →
            playlists !! mood = Some (bucket_of profile mood songs)) as Hb.
  { intros mood Hmood.
    apply (build_loop_bucket songs profile empty_playlists playlists mood []); [done|].
    unfold MOODS in Hmood.
    repeat (apply elem_of_cons in Hmood as [->|Hmood]; [reflexivity|]).
    by apply elem_of_nil in Hmood. }
  split.
  - intros mood Hmood. split; [by apply Hb|].
    unfold bucket_of. clear.
    induction songs as [|raw songs IH]; simpl; [constructor|].
    destruct (classified_as profile mood raw); simpl; by constructor.
  - rewrite !Hb by (unfold MOODS; set_solver). simpl.
    apply bucket_lengths. by eapply build_loop_classified.
Qed.

Lemma build_playlists_order_count_witness :
  let songs := [song_of "rock" 5; song_of "lofi" 1; song_of "jazz" 4; song_of "punk" 2] in
  ∃ playlists,
    build_playlists songs DEFAULT_PROFILE = Ok playlists
    ∧ playlists !! "Hype" = Some [labelled "Hype" (song_of "rock" 5);
                                 labelled "Hype" (song_of "punk" 2)]
    ∧ (length (default [] (playlists !! "Hype"))
       + length (default [] (playlists !! "Chill"))
       + length (default [] (playlists !! "Mixed")) = 4)%nat.
Proof.
  intros songs.
  destruct (build_playlists songs DEFAULT_PROFILE) as [playlists|e] eqn:E;
    [|vm_compute in E; discriminate].
  exists playlists.
  destruct (build_playlists_order_count songs DEFAULT_PROFILE playlists E) as [Hb Hlen].
  split; [done|]. split; [|exact Hlen].
  assert ("Hype" ∈ MOODS) as Hin by constructor.
  rewrite (proj1 (Hb "Hype" Hin)). vm_compute. reflexivity.
Defined.

End builder.


(** ** Aggregator: [merge_playlists] *)

Section merging.
Implicit Types (a b merged : loc) (h : gmap loc PlaylistMap) (da db dm : PlaylistMap).

Lemma merge_playlists_unfold a b h da db :
  h !! a = Some da → h !! b = Some db →
  merge_playlists a b h
  = Some (fresh (dom h),
          set_fold (merge_step a b (fresh (dom h)))
            (<[fresh (dom h) := (∅ : PlaylistMap)]> h) (dom da ∪ dom db)).
Proof. intros Ha Hb. unfold merge_playlists. rewrite Ha, Hb. reflexivity. Qed.

(** The loop over the key set, whatever order the set is walked in. *)
Lemma merge_fold a b merged h da db (keys : gset string) :
  h !! a = Some da → h !! b = Some db → merged ∉ dom h →
  ∃ dm,
    set_fold (merge_step a b merged) (<[merged := (∅ : PlaylistMap)]> h) keys
    = <[merged := dm]> h
    ∧ dom dm = keys
    ∧ ∀ key, key ∈ keys →
        dm !! key = Some (dict_get da key [] ++ dict_get db key []).
Proof.
  intros Ha Hb Hfresh.
  assert (merged ≠ a) as Hna by (intros ->; apply Hfresh, elem_of_dom; by eexists).
  assert (merged ≠ b) as Hnb by (intros ->; apply Hfresh, elem_of_dom; by eexists).
  apply (set_fold_ind_L (λ h' (X : gset string), ∃ dm,
           h' = <[merged := dm]> h ∧ dom dm = X
           ∧ ∀ key, key ∈ X →
               dm !! key = Some (dict_get da key [] ++ dict_get db key []))).
  - exists ∅. split; [done|]. split; [apply dom_empty_L|]. intros key Hkey. set_solver.
  - intros x X r Hx (dm & -> & Hdom & Hlook).
    exists (<[x := dict_get da x [] ++ dict_get db x []]> dm).
    split; [|split].
    + unfold merge_step.
      rewrite !lookup_insert_ne by done. rewrite Ha, Hb, lookup_insert_eq.
      apply insert_insert_eq.
    + rewrite dom_insert_L. by rewrite Hdom.
    + intros key [->%elem_of_singleton|Hkey]%elem_of_union.
      * apply lookup_insert_eq.
      * rewrite lookup_insert_ne by (intros ->; done). by apply Hlook.
Qed.

(** C6: [merge_playlists(a, b)] returns a reference to a new dict: one no
    object had before the call.  Its keys are those of [a] and those of
    [b]; under each key it holds [a]'s list (empty when [a] lacks the key)
    followed by [b]'s.  Every object that existed before the call, [a] and
    [b] among them, is left as it was. *)
Theorem merge_playlists_spec a b h da db :
  h !! a = Some da → h !! b = Some db →
  ∃ merged dm h',
    merge_playlists a b h = Some (merged, h')
    ∧ (merged ∉ dom h)
    ∧ h' !! merged = Some dm
    ∧ dom dm = dom da ∪ dom db
    ∧ (∀ key, key ∈ dom da ∪ dom db →
         dm !! key = Some (dict_get da key [] ++ dict_get db key []))
    ∧ h' !! a = Some da ∧ h' !! b = Some db
    ∧ (∀ l, l ∈ dom h → h' !! l = h !! l).
Proof.
  intros Ha Hb.
  pose proof (is_fresh (dom h)) as Hfresh.
  destruct (merge_fold a b (fresh (dom h)) h da db (dom da ∪ dom db) Ha Hb Hfresh)
    as (dm & Hfold & Hdom & Hlook).
  assert (∀ l, l ∈ dom h → <[fresh (dom h) := dm]> h !! l = h !! l) as Hframe.
  { intros l Hl. apply lookup_insert_ne. by intros <-. }
  exists (fresh (dom h)), dm, (<[fresh (dom h) := dm]> h).
  split; [by rewrite (merge_playlists_unfold a b h da db Ha Hb), Hfold|].
  split; [done|]. split; [apply lookup_insert_eq|].
  split; [done|]. split; [done|].
  split; [|split; [|done]].
  - rewrite Hframe; [done|apply elem_of_dom; by eexists].
  - rewrite Hframe; [done|apply elem_of_dom; by eexists].
Qed.

Lemma merge_playlists_spec_witness :
  ∃ merged dm h',
    merge_playlists 1%positive 2%positive sample_heap = Some (merged, h')
    ∧ (merged ∉ dom sample_heap)
    ∧ h' !! merged = Some dm
    ∧ dom dm = dom playlists_a ∪ dom playlists_b
    ∧ (∀ key, key ∈ dom playlists_a ∪ dom playlists_b →
         dm !! key = Some (dict_get playlists_a key [] ++ dict_get playlists_b key []))
    ∧ h' !! 1%positive = Some playlists_a ∧ h' !! 2%positive = Some playlists_b
    ∧ (∀ l, l ∈ dom sample_heap → h' !! l = sample_heap !! l).
Proof.
  apply (merge_playlists_spec 1%positive 2%positive sample_heap playlists_a playlists_b);
    reflexivity.
Defined.

End merging.

(** ** Query: [search_songs] *)

Section searching.
Implicit Types (songs filtered : loc) (h : gmap loc (list Song)) (l : list Song).

(** The loop appends the matching songs, in order, to the list [filtered]
    refers to, and writes nowhere else. *)
Lemma search_fold query_lower field filtered l h acc :
  h !! filtered = Some acc →
  fold_left (search_step query_lower field filtered) l h
  = <[filtered := acc ++ List.filter (song_matches query_lower field) l]> h.
Proof.
  revert h acc. induction l as [|song l IH]; intros h acc Hacc; simpl.
  - rewrite app_nil_r. symmetry. by apply insert_id.
  - unfold search_step at 2. destruct (song_matches query_lower field song).
    + rewrite Hacc.
      rewrite (IH _ (acc ++ [song])) by apply lookup_insert_eq.
      rewrite insert_insert_eq. by rewrite <- app_assoc.
    + by apply IH.
Qed.

Lemma filter_sublist {A} (f : A → bool) (xs : list A) : List.filter f xs `sublist_of` xs.
Proof.
  induction xs as [|x xs IH]; simpl; [constructor|].
  destruct (f x); by constructor.
Qed.

(** C8: with a falsy query [search_songs] returns the very reference it
    was given and touches nothing.  With a non-empty str query it returns a
    new list holding, in the order of the input, exactly the songs whose
    [str(song.get(field, ""))], lowercased, is non-empty and contains the
    lowercased and stripped query; a song whose field text is empty is never
    among them, and the input list is left as it was. *)
Theorem search_songs_spec songs l h query field :
  h !! songs = Some l →
  (Py.truthy query = false → search_songs songs query field h = Ok (songs, h))
  ∧ (∀ q, query = VStr q → q ≠ EmptyString →
       let found :=
         List.filter
           (λ song,
              let value := PyStr.lower (Py.str (dict_get song field (VStr EmptyString))) in
              negb (PyStr.is_empty value)
              && PyStr.contains (PyStr.strip (PyStr.lower q)) value) l in
       ∃ filtered,
         search_songs songs query field h = Ok (filtered, <[filtered := found]> h)
         ∧ (filtered ∉ dom h)
         ∧ <[filtered := found]> h !! songs = Some l
         ∧ found `sublist_of` l
         ∧ ∀ song, Py.str (dict_get song field (VStr EmptyString)) = EmptyString →
                   song ∉ found).
Proof.
  intros Hsongs. split.
  - intros Hq. unfold search_songs. by rewrite Hq.
  - intros q -> Hne found.
    pose proof (is_fresh (dom h)) as Hfresh.
    assert (fresh (dom h) ≠ songs) as Hns.
    { intros E. apply Hfresh. rewrite E. apply elem_of_dom. by eexists. }
    exists (fresh (dom h)).
    split; [|split; [done|split; [by rewrite lookup_insert_ne|split]]].
    + unfold search_songs.
      assert (Py.truthy (VStr q) = true) as -> by (by destruct q).
      unfold alloc. cbn [negb].
      rewrite lookup_insert_ne by done. rewrite Hsongs.
      rewrite (search_fold _ _ _ _ _ []) by apply lookup_insert_eq.
      by rewrite insert_insert_eq.
    + apply filter_sublist.
    + intros song Hempty Hin.
      apply list_elem_of_In, filter_In in Hin as [_ Hin].
      by rewrite Hempty in Hin.
Qed.

Lemma search_songs_spec_witness :
  search_songs 1%positive (VStr EmptyString) "artist" sample_lists
  = Ok (1%positive, sample_lists)
  ∧ ∃ filtered,
      search_songs 1%positive (VStr " ROCK ") "artist" sample_lists
      = Ok (filtered, <[filtered := [song_artist "The Rockets"]]> sample_lists)
      ∧ (filtered ∉ dom sample_lists).
Proof.
  destruct (search_songs_spec 1%positive
              [song_artist "The Rockets"; song_artist EmptyString; song_artist "Bob"]
              sample_lists (VStr EmptyString) "artist" eq_refl) as [H0 _].
  destruct (search_songs_spec 1%positive
              [song_artist "The Rockets"; song_artist EmptyString; song_artist "Bob"]
              sample_lists (VStr " ROCK ") "artist" eq_refl) as [_ H1].
  split; [apply H0; reflexivity|].
  destruct (H1 " ROCK " eq_refl) as (filtered & Hr & Hf & _); [discriminate|].
  exists filtered. split; [exact Hr|exact Hf].
Defined.

End searching.

(** ** Aggregator: [most_common_artist] *)

Section artists.
Implicit Types (songs : list Song) (xs : list string) (counts : list (string * nat)).

(** C7 fails on the code: the filter of the list comprehension tests the
    raw artist, and the strip comes after it; an artist made of blanks is
    truthy, survives the filter and is counted under the empty name, so the
    answer is the empty name with count 1 where the claim has count 0. *)
Theorem most_common_artist_blank :
  most_common_artist [song_artist_blank] = Ok (EmptyString, 1%nat)
  ∧ artist_names [song_artist_blank] = [EmptyString].
Proof. split; reflexivity. Qed.

End artists.
